(** * HTTP-Header-Security-Analyzer: the analysis engine of internal/analyzer.go

    A shallow embedding of [isHeaderPresent], [AnalyzeURL], the counting
    helpers and [calculateGrade], together with the few functions of Go's
    standard library they call ([strings.HasPrefix], [http.Header.Get],
    [http.Header.Add] and [textproto.CanonicalMIMEHeaderKey]).

    Go strings are byte sequences: they are [string]s of [ascii] here.
    Go's [int] is a 64-bit two's-complement integer: it is a [Z], and every
    arithmetic operation of the program wraps around explicitly. *)

From Stdlib Require Import ZArith Lia Bool Ascii String List.
From stdpp Require Import gmap strings list fin_maps.

Local Open Scope Z_scope.
Local Open Scope string_scope.

(** ** Go's [int] *)

Module GoInt.

Definition wrap (z : Z) : Z := (z + 2 ^ 63) mod 2 ^ 64 - 2 ^ 63.

Definition add (a b : Z) : Z := wrap (a + b).
Definition mul (a b : Z) : Z := wrap (a * b).
(** Go's [/] truncates toward zero. *)
Definition quo (a b : Z) : Z := wrap (Z.quot a b).

End GoInt.

(** ** Bytes and the [strings] package *)

Definition byteBetween (lo hi c : ascii) : bool :=
  (N_of_ascii lo <=? N_of_ascii c)%N && (N_of_ascii c <=? N_of_ascii hi)%N.

Definition isLowerByte (c : ascii) : bool := byteBetween "a" "z" c.
Definition isUpperByte (c : ascii) : bool := byteBetween "A" "Z" c.
Definition isDigitByte (c : ascii) : bool := byteBetween "0" "9" c.

(** [toLower] of net/textproto: the distance ['a' - 'A']. *)
Definition toLower : N := 32.

(** Arithmetic on a [byte], modulo 256. *)
Definition byteSub (c : ascii) (d : N) : ascii :=
  ascii_of_N ((N_of_ascii c + 256 - d mod 256) mod 256).
Definition byteAdd (c : ascii) (d : N) : ascii :=
  ascii_of_N ((N_of_ascii c + d) mod 256).

(** [strings.HasPrefix(s, prefix)]:
    [len(s) >= len(prefix) && s[:len(prefix)] == prefix]. *)
Definition HasPrefix (s prefix : string) : bool :=
  (String.length prefix <=? String.length s)%nat
  && String.eqb (substring 0 (String.length prefix) s) prefix.

(** ** net/textproto: canonical header keys *)

(** The bytes allowed in a header field name (RFC 7230 token bytes), the
    bitmap of [validHeaderFieldByte]. *)
Definition validHeaderFieldByte (c : ascii) : bool :=
  isDigitByte c || isLowerByte c || isUpperByte c
  || existsb (Ascii.eqb c) (list_ascii_of_string "!#$%&'*+-.^_`|~").

(** First loop of [canonicalMIMEHeaderKey]: [None] when a byte is neither
    valid nor a space, otherwise [Some noCanon]. *)
Fixpoint scanHeaderKey (a : string) (noCanon : bool) : option bool :=
  match a with
  | EmptyString => Some noCanon
  | String c rest =>
      if validHeaderFieldByte c then scanHeaderKey rest noCanon
      else if Ascii.eqb c " " then scanHeaderKey rest true
      else None
  end.

(** One byte of the second loop of [canonicalMIMEHeaderKey]. *)
Definition canonicalByte (upper : bool) (c : ascii) : ascii :=
  if upper && isLowerByte c then byteSub c toLower
  else if negb upper && isUpperByte c then byteAdd c toLower
  else c.

(** Second loop of [canonicalMIMEHeaderKey]: upper case for the first letter
    and after each dash, lower case elsewhere. *)
Fixpoint canonicalizeBytes (upper : bool) (a : string) : string :=
  match a with
  | EmptyString => EmptyString
  | String c rest =>
      let c := canonicalByte upper c in
      String c (canonicalizeBytes (Ascii.eqb c "-") rest)
  end.

(** [canonicalMIMEHeaderKey]: the key and whether the input looks like a
    header key.  The table of common headers only interns the result. *)
Definition canonicalMIMEHeaderKey (a : string) : string * bool :=
  match scanHeaderKey a false with
  | None => (a, false)
  | Some true => (a, true)
  | Some false => (canonicalizeBytes true a, true)
  end.

(** The quick check at the head of [CanonicalMIMEHeaderKey]. *)
Fixpoint canonicalQuickCheck (upper : bool) (rest s : string) : string :=
  match rest with
  | EmptyString => s
  | String c rest' =>
      if negb (validHeaderFieldByte c) then s
      else if upper && isLowerByte c then fst (canonicalMIMEHeaderKey s)
      else if negb upper && isUpperByte c then fst (canonicalMIMEHeaderKey s)
      else canonicalQuickCheck (Ascii.eqb c "-") rest' s
  end.

Definition CanonicalMIMEHeaderKey (s : string) : string :=
  canonicalQuickCheck true s s.

(** ** net/http: [Header] and [Response] *)

(** [http.Header] is [map[string][]string]. *)
Abbreviation Header := (gmap string (list string)).

(** [Header.Get]: the first value stored under the canonical form of [key],
    the empty string when there is none. *)
Definition Header_Get (h : Header) (key : string) : string :=
  match h !! CanonicalMIMEHeaderKey key with
  | Some (v :: _) => v
  | _ => EmptyString
  end.

(** [Header.Add]: appends [value] to the values stored under the canonical
    form of [key]. *)
Definition Header_Add (h : Header) (key value : string) : Header :=
  let key := CanonicalMIMEHeaderKey key in
  <[key := ((h !!! key) ++ [value])%list]> h.

(** The header fields of a response in the order they were received, and the
    [Header] the client builds from them. *)
Definition headerOfFields (fields : list (string * string)) : Header :=
  fold_left (fun h kv => Header_Add h (fst kv) (snd kv)) fields ∅.

(** Of [http.Response] the analysis reads the header only. *)
Record Response := { RespHeader : Header }.

Definition responseOfFields (fields : list (string * string)) : Response :=
  {| RespHeader := headerOfFields fields |}.

(** ** The catalog *)

Record SecurityHeader := {
  Name : string;
  Present : bool;
  Description : string;
  Weight : Z;
  Aliases : list string
}.

Record AnalysisResult := {
  Headers : gmap string bool;
  Score : Z;
  Grade : string;
  Summary : list SecurityHeader;
  URL : string
}.

Inductive SecurityHeaderTier := Critical | Important | Recommended.

Definition securityHeaders : list SecurityHeader :=
  [ {| Name := "Strict-Transport-Security"; Present := false;
       Description := "Forces HTTPS connections to protect against man-in-the-middle attacks.";
       Weight := 20; Aliases := [] |};
    {| Name := "X-Content-Type-Options"; Present := false;
       Description := "Prevents MIME-sniffing attacks by enforcing declared content types.";
       Weight := 15; Aliases := [] |};
    {| Name := "X-Frame-Options"; Present := false;
       Description := "Protects against clickjacking by controlling iframe embedding.";
       Weight := 15; Aliases := [] |};
    {| Name := "Content-Security-Policy"; Present := false;
       Description := "Helps prevent XSS attacks by defining allowed content sources.";
       Weight := 20; Aliases := ["Content-Security-Policy-Report-Only"] |};
    {| Name := "Referrer-Policy"; Present := false;
       Description := "Controls how much referrer information is shared with requests.";
       Weight := 15; Aliases := [] |};
    {| Name := "Permissions-Policy"; Present := false;
       Description := "Controls which browser features and APIs can be used.";
       Weight := 10; Aliases := ["Feature-Policy"] |};
    {| Name := "Cross-Origin-Opener-Policy"; Present := false;
       Description := "Prevents cross-origin attacks by isolating browsing context.";
       Weight := 8; Aliases := [] |};
    {| Name := "Cross-Origin-Resource-Policy"; Present := false;
       Description := "Protects resources from being loaded by other origins.";
       Weight := 7; Aliases := [] |} ].

(** ** Presence *)

(** The alias loop of [isHeaderPresent]. *)
Fixpoint anyAliasPresent (resp : Response) (aliases : list string) : bool :=
  match aliases with
  | [] => false
  | alias :: rest =>
      if negb (String.eqb (Header_Get (RespHeader resp) alias) "") then true
      else anyAliasPresent resp rest
  end.

Definition isHeaderPresent (resp : Response) (header : SecurityHeader) : bool :=
  if negb (String.eqb (Header_Get (RespHeader resp) (Name header)) "") then true
  else anyAliasPresent resp (Aliases header).

(** ** Counting and grading *)

(** The inner loop of the two counting functions: whether [header] is
    present under one of [names]. *)
Fixpoint presentUnderAny (header : SecurityHeader) (names : list string) : bool :=
  match names with
  | [] => false
  | n :: rest =>
      if String.eqb (Name header) n && Present header then true
      else presentUnderAny header rest
  end.

(** Their outer loop, [count] being the running counter. *)
Fixpoint countPresentUnder (names : list string) (summary : list SecurityHeader)
    (count : Z) : Z :=
  match summary with
  | [] => count
  | header :: rest =>
      countPresentUnder names rest
        (if presentUnderAny header names then GoInt.add count 1 else count)
  end.

Definition criticalHeaders : list string :=
  ["Strict-Transport-Security"; "X-Content-Type-Options"; "X-Frame-Options"].

Definition importantHeaders : list string :=
  ["Content-Security-Policy"; "Referrer-Policy"].

Definition countCriticalHeaders (summary : list SecurityHeader) : Z :=
  countPresentUnder criticalHeaders summary 0.

Definition countImportantHeaders (summary : list SecurityHeader) : Z :=
  countPresentUnder importantHeaders summary 0.

(** [hasAnyCriticalHeader], lines 199-211: the same inner loop, returning at
    the first item found. *)
Fixpoint hasAnyCriticalHeader (summary : list SecurityHeader) : bool :=
  match summary with
  | [] => false
  | header :: rest =>
      if presentUnderAny header criticalHeaders then true
      else hasAnyCriticalHeader rest
  end.

Definition calculateGrade (score : Z) : string :=
  if score >=? 80 then "A"
  else if score >=? 65 then "B"
  else if score >=? 45 then "C"
  else if score >=? 25 then "D"
  else "F".

(** ** The analysis *)

(** Lines 104-106 of [AnalyzeURL]. *)
Definition normalizeURL (url : string) : string :=
  if negb (HasPrefix url "http://") && negb (HasPrefix url "https://")
  then "https://" +:+ url
  else url.

(** What the loop over the catalog updates: the two collections of the
    result and the two weights. *)
Record ScanState := {
  scanHeaders : gmap string bool;
  scanSummary : list SecurityHeader;
  totalWeight : Z;
  achievedWeight : Z
}.

Definition scanStart : ScanState :=
  {| scanHeaders := ∅; scanSummary := []; totalWeight := 0; achievedWeight := 0 |}.

Definition summaryItem (resp : Response) (header : SecurityHeader) : SecurityHeader :=
  {| Name := Name header;
     Present := isHeaderPresent resp header;
     Description := Description header;
     Weight := Weight header;
     Aliases := Aliases header |}.

(** One iteration of the loop at lines 133-150. *)
Definition scanHeader (resp : Response) (st : ScanState) (header : SecurityHeader)
    : ScanState :=
  let present := isHeaderPresent resp header in
  {| scanHeaders := <[Name header := present]> (scanHeaders st);
     scanSummary := (scanSummary st ++ [summaryItem resp header])%list;
     totalWeight := GoInt.add (totalWeight st) (Weight header);
     achievedWeight :=
       if present then GoInt.add (achievedWeight st) (Weight header)
       else achievedWeight st |}.

Definition scanCatalog (resp : Response) : ScanState :=
  fold_left (scanHeader resp) securityHeaders scanStart.

Definition headerScore (st : ScanState) : Z :=
  if totalWeight st >? 0
  then GoInt.quo (GoInt.mul (achievedWeight st) 70) (totalWeight st)
  else 0.

Definition httpsScore (url : string) : Z :=
  if HasPrefix url "https://" then 30 else 0.

(** The bonus computed inside [if criticalCount > 0]. *)
Definition criticalBonus (criticalCount : Z) : Z :=
  let criticalBonus := GoInt.quo (GoInt.mul criticalCount 10) 3 in
  if criticalBonus >? 10 then 10 else criticalBonus.

(** The bonus computed inside [if importantCount > 0]. *)
Definition importantBonus (importantCount : Z) : Z :=
  let importantBonus := GoInt.quo (GoInt.mul importantCount 5) 2 in
  if importantBonus >? 5 then 5 else importantBonus.

(** Lines 152-187: the score before the cap. *)
Definition uncappedScore (st : ScanState) (url : string) : Z :=
  let score := GoInt.add (headerScore st) (httpsScore url) in
  let criticalCount := countCriticalHeaders (scanSummary st) in
  let importantCount := countImportantHeaders (scanSummary st) in
  let score :=
    if criticalCount >? 0 then GoInt.add score (criticalBonus criticalCount)
    else score in
  if importantCount >? 0 then GoInt.add score (importantBonus importantCount)
  else score.

(** Lines 124-196: the result built from a fetched response. *)
Definition analyzeResponse (resp : Response) (url : string) : AnalysisResult :=
  let st := scanCatalog resp in
  let score := uncappedScore st url in
  let score := if score >? 100 then 100 else score in
  {| Headers := scanHeaders st;
     Score := score;
     Grade := calculateGrade score;
     Summary := scanSummary st;
     URL := url |}.

(** A Go [error], by its cause text. *)
Definition error := string.

(** What [client.Get] hands back: a response and a nil error, or no usable
    response and the error. *)
Inductive FetchOutcome :=
  | Fetched (resp : Response)
  | FetchFailed (err : error).

Section Analyze.

(** The network as seen through the configured client. *)
Variable client_Get : string -> FetchOutcome.

(** The two returned values, [nil] being [None]. *)
Definition AnalyzeURL (url : string) : option AnalysisResult * option error :=
  let url := normalizeURL url in
  match client_Get url with
  | FetchFailed err => (None, Some err)
  | Fetched resp => (Some (analyzeResponse resp url), None)
  end.

End Analyze.

(** ** main.go: the handler of POST /analyze *)

Record AnalyzeRequest := { RequestURL : string }.

Record ErrorResponse := { Error : string }.

(** What the handler writes as JSON: an [ErrorResponse], or the pointer
    [AnalyzeURL] returned. *)
Inductive ReplyBody :=
  | ErrorBody (e : ErrorResponse)
  | ResultBody (result : option AnalysisResult).

Record Reply := { ReplyStatus : Z; ReplyJSON : ReplyBody }.

Definition StatusOK : Z := 200.
Definition StatusBadRequest : Z := 400.
Definition StatusInternalServerError : Z := 500.

Section Handler.

(** The request context, and what [c.BodyParser(&req)] leaves in [req]:
    [None] when it returns an error. *)
Variable Ctx : Type.
Variable BodyParser : Ctx -> option AnalyzeRequest.
Variable client_Get : string -> FetchOutcome.

Definition analyzeHandler (c : Ctx) : Reply :=
  match BodyParser c with
  | None =>
      {| ReplyStatus := StatusBadRequest;
         ReplyJSON := ErrorBody {| Error := "Invalid request body" |} |}
  | Some req =>
      if String.eqb (RequestURL req) "" then
        {| ReplyStatus := StatusBadRequest;
           ReplyJSON := ErrorBody {| Error := "URL is required" |} |}
      else
        match AnalyzeURL client_Get (RequestURL req) with
        | (_, Some err) =>
            {| ReplyStatus := StatusInternalServerError;
               ReplyJSON := ErrorBody {| Error := "Failed to analyze URL: " +:+ err |} |}
        | (result, None) =>
            {| ReplyStatus := StatusOK; ReplyJSON := ResultBody result |}
        end
  end.

End Handler.

(** * Notions the properties are stated with *)

(** ** Names up to ASCII case *)

Definition lowerByte (c : ascii) : ascii :=
  if isUpperByte c then byteAdd c toLower else c.

Fixpoint lowerString (s : string) : string :=
  match s with
  | EmptyString => EmptyString
  | String c rest => String (lowerByte c) (lowerString rest)
  end.

(** Equality of two header names up to the case of ASCII letters. *)
Definition equalFold (a b : string) : bool :=
  String.eqb (lowerString a) (lowerString b).

(** The values a response carries under [name], in the order received. *)
Definition valuesOf (name : string) (fields : list (string * string)) : list string :=
  map snd (List.filter (fun kv => equalFold (fst kv) name) fields).

Fixpoint validKey (s : string) : bool :=
  match s with
  | EmptyString => true
  | String c rest => validHeaderFieldByte c && validKey rest
  end.

(** What both entry points compute. *)
Definition canonicalKey (s : string) : string :=
  if validKey s then canonicalizeBytes true s else s.

(** The names a catalog entry is looked up under. *)
Definition headerNames (header : SecurityHeader) : list string :=
  Name header :: Aliases header.

(** Some value received under one of the entry's names is non-empty. *)
Definition someValueNonEmpty (fields : list (string * string))
    (header : SecurityHeader) : Prop :=
  exists n v, In n (headerNames header) /\ In v (valuesOf n fields) /\ v <> EmptyString.

(** The first value received under one of the entry's names is non-empty. *)
Definition firstValueNonEmpty (fields : list (string * string))
    (header : SecurityHeader) : Prop :=
  exists n v rest,
    In n (headerNames header) /\ valuesOf n fields = v :: rest /\ v <> EmptyString.

(** The order of the grades, from "F" up to "A". *)
Definition gradeRank (grade : string) : Z :=
  if String.eqb grade "A" then 4
  else if String.eqb grade "B" then 3
  else if String.eqb grade "C" then 2
  else if String.eqb grade "D" then 1
  else 0.

(** The presence of each catalog entry, in catalog order. *)
Definition presence (resp : Response) : list bool :=
  map (isHeaderPresent resp) securityHeaders.

(** [s] starts with the bytes of [prefix]. *)
Definition startsWith (s prefix : string) : Prop :=
  exists rest, s = prefix +:+ rest.

(** The tiers of the catalog entries, in catalog order: the three groups
    the catalog is written in. *)
Definition catalogTiers : list SecurityHeaderTier :=
  [Critical; Critical; Critical; Important; Important;
   Recommended; Recommended; Recommended].

Definition tierIs (t u : SecurityHeaderTier) : bool :=
  match t, u with
  | Critical, Critical | Important, Important | Recommended, Recommended => true
  | _, _ => false
  end.

(** The sum of the weights [ws] at the positions where [bs] is true. *)
Fixpoint weightedCount (ws : list Z) (bs : list bool) : Z :=
  match ws, bs with
  | w :: ws, b :: bs => (if b then w else 0) + weightedCount ws bs
  | _, _ => 0
  end.

(** The weight a presence list achieves. *)
Definition presentWeight (bs : list bool) : Z :=
  weightedCount (map Weight securityHeaders) bs.

(** How many entries of tier [t] a presence list has. *)
Definition presentInTier (t : SecurityHeaderTier) (bs : list bool) : Z :=
  weightedCount (map (fun u => if tierIs u t then 1 else 0) catalogTiers) bs.

(** The bonuses as formulas over the integers, [/] rounding down. *)
Definition criticalBonusFormula (n : Z) : Z :=
  if n >? 0 then Z.min 10 (n * 10 / 3) else 0.

Definition importantBonusFormula (n : Z) : Z :=
  if n >? 0 then Z.min 5 (n * 5 / 2) else 0.

(** A response in which exactly the entries marked in [bs] are present, each
    sent once under its canonical name. *)
Definition responseOfPresence (bs : list bool) : Response :=
  responseOfFields
    (map (fun hb => (Name (fst hb), "1"))
         (List.filter snd (combine securityHeaders bs))).

(** The facts of the scoring that are checked on each presence list:
    [bs] is the presence list and [st] the state the loop ends in. *)
Definition scoringFacts (bs : list bool) (st : ScanState) : bool :=
  let critical := presentInTier Critical bs in
  let important := presentInTier Important bs in
  let bonuses := criticalBonusFormula critical + importantBonusFormula important in
  (totalWeight st =? 110)%Z
  && (achievedWeight st =? presentWeight bs)%Z
  && (headerScore st =? presentWeight bs * 70 / 110)%Z
  && (countCriticalHeaders (scanSummary st) =? critical)%Z
  && (countImportantHeaders (scanSummary st) =? important)%Z
  && (uncappedScore st "https://" =? headerScore st + 30 + bonuses)%Z
  && (uncappedScore st "" =? headerScore st + 0 + bonuses)%Z
  && (0 <=? headerScore st)%Z && (headerScore st <=? 70)%Z
  && (0 <=? critical)%Z && (critical <=? 3)%Z
  && (0 <=? important)%Z && (important <=? 2)%Z.

(** Every name the catalog is looked up under. *)
Definition catalogNames : list string := flat_map headerNames securityHeaders.

(** [name] is, up to case, one of the catalog's names. *)
Definition isCatalogName (name : string) : bool :=
  existsb (equalFold name) catalogNames.

(** Two received fields with the same name up to case whose values are both
    empty or both non-empty. *)
Definition sameFieldShape (f g : string * string) : Prop :=
  equalFold (fst f) (fst g) = true /\
  (snd f = EmptyString <-> snd g = EmptyString).

(** A summary item counted by [countCriticalHeaders]. *)
Definition isCriticalPresent (header : SecurityHeader) : bool :=
  existsb (String.eqb (Name header)) criticalHeaders && Present header.

(** A summary item counted by [countImportantHeaders]. *)
Definition isImportantPresent (header : SecurityHeader) : bool :=
  existsb (String.eqb (Name header)) importantHeaders && Present header.

(** The extreme scores, checked on each presence list: [bs] is the presence
    list and [st] the state the loop ends in. *)
Definition extremeFacts (bs : list bool) (st : ScanState) : bool :=
  Bool.eqb (uncappedScore st "" =? 0)%Z (forallb negb bs)
  && Bool.eqb (uncappedScore st "https://" =? 115)%Z (forallb (fun b => b) bs)
  && (uncappedScore st "" <=? 85)%Z
  && (uncappedScore st "https://" <=? 115)%Z.

(** * Properties *)

(** ** Canonical keys *)

Ltac each_byte c := destruct c as [[] [] [] [] [] [] [] []].

Lemma lowerByte_canonicalByte u c : lowerByte (canonicalByte u c) = lowerByte c.
Proof. each_byte c; destruct u; reflexivity. Qed.

Lemma canonicalByte_lowerByte u c : canonicalByte u (lowerByte c) = canonicalByte u c.
Proof. each_byte c; destruct u; reflexivity. Qed.

Lemma valid_lowerByte c : validHeaderFieldByte (lowerByte c) = validHeaderFieldByte c.
Proof. each_byte c; reflexivity. Qed.

Lemma valid_canonicalByte u c :
  validHeaderFieldByte (canonicalByte u c) = validHeaderFieldByte c.
Proof. each_byte c; destruct u; reflexivity. Qed.

Lemma canonicalByte_fixed u c :
  (u && isLowerByte c = false) -> (negb u && isUpperByte c = false) ->
  canonicalByte u c = c.
Proof. unfold canonicalByte. intros -> ->. reflexivity. Qed.

Lemma lowerString_canonicalizeBytes s : forall u,
  lowerString (canonicalizeBytes u s) = lowerString s.
Proof.
  induction s as [|c s IH]; intros u; simpl; [reflexivity|].
  rewrite lowerByte_canonicalByte, IH. reflexivity.
Qed.

Lemma canonicalizeBytes_lowerString s : forall u,
  canonicalizeBytes u (lowerString s) = canonicalizeBytes u s.
Proof.
  induction s as [|c s IH]; intros u; simpl; [reflexivity|].
  rewrite canonicalByte_lowerByte, IH. reflexivity.
Qed.

Lemma validKey_lowerString s : validKey (lowerString s) = validKey s.
Proof.
  induction s as [|c s IH]; simpl; [reflexivity|].
  rewrite valid_lowerByte, IH. reflexivity.
Qed.

Lemma validKey_canonicalizeBytes s : forall u,
  validKey (canonicalizeBytes u s) = validKey s.
Proof.
  induction s as [|c s IH]; intros u; simpl; [reflexivity|].
  rewrite valid_canonicalByte, IH. reflexivity.
Qed.

(** The first loop of [canonicalMIMEHeaderKey] lets the second one run
    exactly on the keys made of valid bytes. *)
Lemma scanHeaderKey_valid s : validKey s = true -> forall b, scanHeaderKey s b = Some b.
Proof.
  induction s as [|c s IH]; simpl; intros Hv b; [reflexivity|].
  apply andb_true_iff in Hv as [-> Hs]. auto.
Qed.

Lemma scanHeaderKey_invalid s :
  validKey s = false -> forall b, scanHeaderKey s b = None \/ scanHeaderKey s b = Some true.
Proof.
  induction s as [|c s IH]; simpl; intros Hv b; [discriminate|].
  destruct (validHeaderFieldByte c); simpl in Hv.
  - auto.
  - destruct (Ascii.eqb c " "); [|auto].
    destruct (validKey s) eqn:Hs; [|auto].
    right. apply scanHeaderKey_valid. exact Hs.
Qed.

Lemma canonicalMIMEHeaderKey_fst s : fst (canonicalMIMEHeaderKey s) = canonicalKey s.
Proof.
  unfold canonicalMIMEHeaderKey, canonicalKey.
  destruct (validKey s) eqn:Hv.
  - rewrite (scanHeaderKey_valid s Hv). reflexivity.
  - destruct (scanHeaderKey_invalid s Hv false) as [-> | ->]; reflexivity.
Qed.

Lemma canonicalQuickCheck_spec s rest : forall u,
  (validKey rest = false -> validKey s = false) ->
  (canonicalizeBytes u rest = rest -> canonicalizeBytes true s = s) ->
  canonicalQuickCheck u rest s = canonicalKey s.
Proof.
  induction rest as [|c rest IH]; intros u Hbad Hfix; simpl.
  - unfold canonicalKey. rewrite Hfix by reflexivity. destruct (validKey s); reflexivity.
  - destruct (validHeaderFieldByte c) eqn:Hc; simpl.
    + destruct (u && isLowerByte c) eqn:Hl; [apply canonicalMIMEHeaderKey_fst|].
      destruct (negb u && isUpperByte c) eqn:Hu; [apply canonicalMIMEHeaderKey_fst|].
      apply IH.
      * intros Hr. apply Hbad. simpl. rewrite Hr. apply andb_false_r.
      * intros Hr. apply Hfix. simpl.
        rewrite (canonicalByte_fixed u c Hl Hu), Hr. reflexivity.
    + unfold canonicalKey. rewrite Hbad; [reflexivity|].
      simpl. rewrite Hc. reflexivity.
Qed.

Lemma CanonicalMIMEHeaderKey_spec s : CanonicalMIMEHeaderKey s = canonicalKey s.
Proof. apply canonicalQuickCheck_spec; auto. Qed.

(** Two names share a canonical key exactly when they are equal up to
    case, as soon as one of them is made of valid bytes. *)
Lemma canonicalKey_equalFold n m :
  validKey m = true ->
  (CanonicalMIMEHeaderKey n = CanonicalMIMEHeaderKey m <-> equalFold n m = true).
Proof.
  intros Hm. rewrite !CanonicalMIMEHeaderKey_spec. unfold equalFold, canonicalKey.
  rewrite Hm, String.eqb_eq. split.
  - destruct (validKey n) eqn:Hn; intros E.
    + rewrite <- (lowerString_canonicalizeBytes n true), E.
      apply lowerString_canonicalizeBytes.
    + rewrite E, validKey_canonicalizeBytes in Hn. congruence.
  - intros E.
    assert (Hn : validKey n = true)
      by (rewrite <- validKey_lowerString, E, validKey_lowerString; exact Hm).
    rewrite Hn, <- (canonicalizeBytes_lowerString n), E.
    apply canonicalizeBytes_lowerString.
Qed.

(** ** The header built from the received fields *)

Lemma Header_Get_total (h : Header) key :
  Header_Get h key = hd EmptyString (h !!! CanonicalMIMEHeaderKey key).
Proof.
  unfold Header_Get. rewrite lookup_total_alt.
  destruct (h !! CanonicalMIMEHeaderKey key) as [[|v vs]|]; reflexivity.
Qed.

Lemma Header_Add_total (h : Header) key value k :
  Header_Add h key value !!! k =
  if String.eqb (CanonicalMIMEHeaderKey key) k
  then ((h !!! k) ++ [value])%list else h !!! k.
Proof.
  unfold Header_Add.
  destruct (String.eqb_spec (CanonicalMIMEHeaderKey key) k) as [<- | Hne].
  - apply lookup_total_insert_eq.
  - apply lookup_total_insert_ne. exact Hne.
Qed.

Lemma fold_Header_Add_total fields k : forall h : Header,
  fold_left (fun h kv => Header_Add h (fst kv) (snd kv)) fields h !!! k =
  ((h !!! k) ++
   map snd (List.filter (fun kv => String.eqb (CanonicalMIMEHeaderKey (fst kv)) k) fields))%list.
Proof.
  induction fields as [|[key value] fields IH]; intros h; simpl.
  - symmetry. apply app_nil_r.
  - rewrite IH, Header_Add_total.
    destruct (String.eqb (CanonicalMIMEHeaderKey key) k); simpl.
    + rewrite <- app_assoc. reflexivity.
    + reflexivity.
Qed.

Lemma filter_equalFold name fields :
  validKey name = true ->
  List.filter (fun kv : string * string =>
     String.eqb (CanonicalMIMEHeaderKey (fst kv)) (CanonicalMIMEHeaderKey name)) fields =
  List.filter (fun kv => equalFold (fst kv) name) fields.
Proof.
  intros Hv. induction fields as [|kv fields IH]; simpl; [reflexivity|].
  rewrite IH.
  destruct (equalFold (fst kv) name) eqn:E.
  - apply (canonicalKey_equalFold _ _ Hv) in E. rewrite E, String.eqb_refl. reflexivity.
  - destruct (String.eqb_spec (CanonicalMIMEHeaderKey (fst kv)) (CanonicalMIMEHeaderKey name))
      as [E' | _]; [|reflexivity].
    apply (canonicalKey_equalFold _ _ Hv) in E'. congruence.
Qed.

(** [Get] reads the first value received under the name, whatever the case
    the name was sent in. *)
Lemma Header_Get_fields fields name :
  validKey name = true ->
  Header_Get (headerOfFields fields) name = hd EmptyString (valuesOf name fields).
Proof.
  intros Hv. unfold headerOfFields, valuesOf.
  rewrite Header_Get_total, fold_Header_Add_total, lookup_total_empty.
  rewrite (filter_equalFold name fields Hv). reflexivity.
Qed.

(** ** Presence *)

Lemma nonEmpty_hd (l : list string) :
  negb (String.eqb (hd EmptyString l) EmptyString) = true <->
  exists v rest, l = v :: rest /\ v <> EmptyString.
Proof.
  rewrite negb_true_iff. split.
  - destruct l as [|v rest]; simpl; [discriminate|].
    intros E. exists v, rest. split; [reflexivity|].
    intros ->. discriminate.
  - intros (v & rest & -> & Hv). simpl.
    apply String.eqb_neq. exact Hv.
Qed.

Lemma anyAliasPresent_fields fields aliases :
  forallb validKey aliases = true ->
  (anyAliasPresent (responseOfFields fields) aliases = true <->
   exists a v rest, In a aliases /\ valuesOf a fields = v :: rest /\ v <> EmptyString).
Proof.
  induction aliases as [|a aliases IH]; simpl; intros Hv.
  - split; [discriminate | intros (a & v & rest & [] & _)].
  - apply andb_true_iff in Hv as [Ha Hrest].
    rewrite (Header_Get_fields fields a Ha).
    destruct (negb (String.eqb (hd EmptyString (valuesOf a fields)) EmptyString)) eqn:E.
    + split; [intros _ | reflexivity].
      apply nonEmpty_hd in E as (v & rest & Hl & Hne). exists a, v, rest. auto.
    + rewrite (IH Hrest). split.
      * intros (b & v & rest & Hin & Hl & Hne). exists b, v, rest. auto.
      * intros (b & v & rest & [<- | Hin] & Hl & Hne).
        -- assert (E' : negb (String.eqb (hd EmptyString (valuesOf a fields)) EmptyString) = true)
             by (apply nonEmpty_hd; eauto).
           congruence.
        -- exists b, v, rest. auto.
Qed.

(** Presence of an entry whose names are header keys, read off the fields
    received. *)
Lemma isHeaderPresent_fields fields header :
  forallb validKey (headerNames header) = true ->
  (isHeaderPresent (responseOfFields fields) header = true <->
   firstValueNonEmpty fields header).
Proof.
  unfold isHeaderPresent, firstValueNonEmpty, headerNames. simpl.
  intros Hv. apply andb_true_iff in Hv as [Hn Ha].
  rewrite (Header_Get_fields fields _ Hn).
  destruct (negb (String.eqb (hd EmptyString (valuesOf (Name header) fields)) EmptyString)) eqn:E.
  - split; [intros _ | reflexivity].
    apply nonEmpty_hd in E as (v & rest & Hl & Hne). exists (Name header), v, rest. auto.
  - rewrite (anyAliasPresent_fields fields _ Ha). split.
    + intros (b & v & rest & Hin & Hl & Hne). exists b, v, rest. auto.
    + intros (b & v & rest & [<- | Hin] & Hl & Hne).
      * assert (E' : negb (String.eqb (hd EmptyString (valuesOf (Name header) fields)) EmptyString) = true)
          by (apply nonEmpty_hd; eauto).
        congruence.
      * exists b, v, rest. auto.
Qed.

Lemma securityHeaders_validKeys :
  Forall (fun header => forallb validKey (headerNames header) = true) securityHeaders.
Proof. repeat constructor. Qed.

(** C1 (as the code has it): for every response, given by the header fields
    received, and every catalog entry, [isHeaderPresent] returns true if and
    only if the first value received under the entry's canonical name, or
    under one of its aliases, is non-empty.  Names are compared up to ASCII
    case; a name whose first value is the empty string counts as absent. *)
Theorem isHeaderPresent_first_value (fields : list (string * string))
    (header : SecurityHeader) :
  In header securityHeaders ->
  (isHeaderPresent (responseOfFields fields) header = true <->
   firstValueNonEmpty fields header).
Proof.
  intros Hin. apply isHeaderPresent_fields.
  exact (proj1 (List.Forall_forall _ _) securityHeaders_validKeys header Hin).
Qed.

Lemma isHeaderPresent_first_value_witness :
  let header :=
    {| Name := "Content-Security-Policy"; Present := false;
       Description := "Helps prevent XSS attacks by defining allowed content sources.";
       Weight := 20; Aliases := ["Content-Security-Policy-Report-Only"] |} in
  let fields := [("content-security-policy-report-only", "default-src 'self'")] in
  In header securityHeaders /\
  (isHeaderPresent (responseOfFields fields) header = true <->
   firstValueNonEmpty fields header).
Proof.
  simpl. split.
  - do 3 right. left. reflexivity.
  - apply isHeaderPresent_first_value. do 3 right. left. reflexivity.
Defined.

(** C1 (as stated) fails when a name is received twice, first with an empty
    value and then with a non-empty one: some value is non-empty, and the
    check answers false. *)
Lemma isHeaderPresent_some_value_counterexample :
  let header :=
    {| Name := "X-Frame-Options"; Present := false;
       Description := "Protects against clickjacking by controlling iframe embedding.";
       Weight := 15; Aliases := [] |} in
  let fields := [("X-Frame-Options", ""); ("X-Frame-Options", "DENY")] in
  In header securityHeaders /\
  someValueNonEmpty fields header /\
  isHeaderPresent (responseOfFields fields) header = false.
Proof.
  simpl. split; [|split].
  - do 2 right. left. reflexivity.
  - exists "X-Frame-Options", "DENY". repeat split.
    + left. reflexivity.
    + vm_compute. right. left. reflexivity.
    + discriminate.
  - vm_compute. reflexivity.
Qed.

(** ** Grades *)

Ltac grade_cases :=
  unfold calculateGrade; rewrite ?Z.geb_leb;
  repeat match goal with
         | |- context [Z.leb ?a ?b] => destruct (Z.leb_spec a b)
         end.

Lemma gradeRank_mono s t :
  s <= t -> gradeRank (calculateGrade s) <= gradeRank (calculateGrade t).
Proof. intros H. grade_cases; try lia; vm_compute; discriminate. Qed.

Lemma calculateGrade_not_F s : 25 <= s -> In (calculateGrade s) ["A"; "B"; "C"; "D"].
Proof. intros H. grade_cases; simpl; auto 10; lia. Qed.

(** C3: [calculateGrade] maps every integer score to the grade of its
    range, "A" from 80, "B" from 65, "C" from 45, "D" from 25 and "F"
    below; 80 gives "A", 65 gives "B", and a higher score never gets a
    lower grade. *)
Theorem calculateGrade_ranges (s t : Z) :
  (80 <= s -> calculateGrade s = "A") /\
  (65 <= s < 80 -> calculateGrade s = "B") /\
  (45 <= s < 65 -> calculateGrade s = "C") /\
  (25 <= s < 45 -> calculateGrade s = "D") /\
  (s < 25 -> calculateGrade s = "F") /\
  calculateGrade 80 = "A" /\
  calculateGrade 65 = "B" /\
  (s <= t -> gradeRank (calculateGrade s) <= gradeRank (calculateGrade t)).
Proof.
  repeat split; try reflexivity; try apply gradeRank_mono;
    intros H; grade_cases; try reflexivity; lia.
Qed.

Lemma calculateGrade_ranges_witness :
  calculateGrade 71 = "B" /\
  gradeRank (calculateGrade 71) <= gradeRank (calculateGrade 90).
Proof.
  pose proof (calculateGrade_ranges 71 90) as (_ & HB & _ & _ & _ & _ & _ & Hmono).
  split; [apply HB | apply Hmono]; lia.
Defined.

Lemma calculateGrade_grades s :
  In (calculateGrade s) ["A"; "B"; "C"; "D"; "F"].
Proof. grade_cases; simpl; auto 10. Qed.

(** ** Prefixes and normalization *)

Lemma substring_0_0 s : substring 0 0 s = EmptyString.
Proof. destruct s; reflexivity. Qed.

Lemma append_String c s t : String c s +:+ t = String c (s +:+ t).
Proof. reflexivity. Qed.

Lemma HasPrefix_startsWith prefix : forall s,
  HasPrefix s prefix = true <-> startsWith s prefix.
Proof.
  unfold HasPrefix, startsWith.
  induction prefix as [|c prefix IH]; intros s.
  - simpl. rewrite substring_0_0. simpl. split; [intros _; exists s; reflexivity | reflexivity].
  - destruct s as [|d s]; simpl.
    + split; [discriminate | intros [rest E]; discriminate].
    + specialize (IH s). simpl in IH.
      destruct (Ascii.eqb_spec d c) as [-> | Hne].
      * rewrite IH. split; intros [rest E]; exists rest; rewrite append_String in *; congruence.
      * rewrite andb_false_r. split; [discriminate | intros [rest E]; rewrite append_String in E; congruence].
Qed.

Lemma HasPrefix_not_startsWith prefix s :
  HasPrefix s prefix = false <-> ~ startsWith s prefix.
Proof.
  rewrite <- HasPrefix_startsWith. destruct (HasPrefix s prefix); split; congruence.
Qed.

(** What [AnalyzeURL] returns, by the outcome of the fetch. *)
Lemma AnalyzeURL_Fetched client_Get url resp :
  client_Get (normalizeURL url) = Fetched resp ->
  AnalyzeURL client_Get url = (Some (analyzeResponse resp (normalizeURL url)), None).
Proof. unfold AnalyzeURL. intros ->. reflexivity. Qed.

Lemma AnalyzeURL_FetchFailed client_Get url err :
  client_Get (normalizeURL url) = FetchFailed err ->
  AnalyzeURL client_Get url = (None, Some err).
Proof. unfold AnalyzeURL. intros ->. reflexivity. Qed.

Lemma AnalyzeURL_result client_Get url r :
  fst (AnalyzeURL client_Get url) = Some r ->
  exists resp, client_Get (normalizeURL url) = Fetched resp /\
               r = analyzeResponse resp (normalizeURL url).
Proof.
  unfold AnalyzeURL. destruct (client_Get (normalizeURL url)) as [resp | err]; simpl.
  - intros [= <-]. exists resp. auto.
  - discriminate.
Qed.

(** C5: normalization is defined on every string; an input that starts
    with neither "http://" nor "https://" (compared byte by byte) gets
    "https://" in front, any other input is returned as it is; the
    normalized string is the one fetched and the [URL] of the result. *)
Theorem normalizeURL_spec (url : string) :
  ((~ startsWith url "http://" /\ ~ startsWith url "https://") \/
   (startsWith url "http://" \/ startsWith url "https://")) /\
  (~ startsWith url "http://" /\ ~ startsWith url "https://" ->
   normalizeURL url = "https://" +:+ url) /\
  (startsWith url "http://" \/ startsWith url "https://" ->
   normalizeURL url = url) /\
  (forall client_Get resp,
     client_Get (normalizeURL url) = Fetched resp ->
     exists r, AnalyzeURL client_Get url = (Some r, None) /\ URL r = normalizeURL url) /\
  (forall client_Get r,
     fst (AnalyzeURL client_Get url) = Some r -> URL r = normalizeURL url).
Proof.
  unfold normalizeURL. repeat split.
  - destruct (HasPrefix url "http://") eqn:H1;
      [right; left; apply HasPrefix_startsWith, H1|].
    destruct (HasPrefix url "https://") eqn:H2;
      [right; right; apply HasPrefix_startsWith, H2|].
    left. split; apply HasPrefix_not_startsWith; assumption.
  - intros [H1 H2].
    apply HasPrefix_not_startsWith in H1, H2. rewrite H1, H2. reflexivity.
  - intros [H | H]; apply HasPrefix_startsWith in H; rewrite H; simpl;
      [reflexivity | rewrite andb_false_r; reflexivity].
  - intros client_Get resp Hget. eexists. split.
    + apply AnalyzeURL_Fetched. exact Hget.
    + reflexivity.
  - intros client_Get r Hr.
    apply AnalyzeURL_result in Hr as (resp & _ & ->). reflexivity.
Qed.

Lemma normalizeURL_spec_witness :
  normalizeURL "example.com" = "https://example.com" /\
  normalizeURL "http://example.com" = "http://example.com".
Proof.
  split.
  - apply (proj1 (proj2 (normalizeURL_spec "example.com"))).
    split; intros [rest E]; discriminate.
  - apply (proj1 (proj2 (proj2 (normalizeURL_spec "http://example.com")))).
    left. exists "example.com". reflexivity.
Defined.

Example normalizeURL_upper_case_scheme :
  normalizeURL "HTTP://example.com" = "https://HTTP://example.com".
Proof. reflexivity. Qed.

(** ** The loop over the catalog *)

Lemma securityHeaders_names_NoDup : NoDup (map Name securityHeaders).
Proof. apply (bool_decide_unpack _). vm_compute. exact I. Qed.

Section Scan.

Variable resp : Response.

Lemma fold_scanHeader_summary hs : forall st,
  scanSummary (fold_left (scanHeader resp) hs st) =
  (scanSummary st ++ map (summaryItem resp) hs)%list.
Proof.
  induction hs as [|h hs IH]; intros st; simpl.
  - symmetry. apply app_nil_r.
  - rewrite IH. simpl. rewrite <- app_assoc. reflexivity.
Qed.

Lemma fold_scanHeader_dom hs : forall st,
  dom (scanHeaders (fold_left (scanHeader resp) hs st)) =
  dom (scanHeaders st) ∪ list_to_set (map Name hs).
Proof.
  induction hs as [|h hs IH]; intros st; simpl.
  - rewrite (right_id_L ∅ (∪)). reflexivity.
  - rewrite IH. simpl. rewrite dom_insert_L.
    rewrite (comm_L (∪) {[Name h]}), (assoc_L (∪)). reflexivity.
Qed.

(** Each name is written once: what is stored under it is the presence of
    its entry. *)
Lemma fold_scanHeader_lookup hs :
  NoDup (map Name hs) ->
  forall st h, In h hs ->
  scanHeaders (fold_left (scanHeader resp) hs st) !! Name h = Some (isHeaderPresent resp h).
Proof.
  induction hs as [|h' hs IH] using rev_ind; intros Hnd st h Hin; [destruct Hin|].
  rewrite fold_left_app. simpl.
  rewrite map_app in Hnd. apply NoDup_app in Hnd as (Hnd & Hfresh & _).
  apply in_app_or in Hin as [Hin | [<- | []]].
  - rewrite lookup_insert_ne; [apply IH; assumption|].
    intros E. apply (Hfresh (Name h)).
    + apply list_elem_of_In, in_map, Hin.
    + rewrite <- E. simpl. left.
  - apply lookup_insert_eq.
Qed.

Lemma scanCatalog_summary :
  scanSummary (scanCatalog resp) = map (summaryItem resp) securityHeaders.
Proof. unfold scanCatalog. rewrite fold_scanHeader_summary. reflexivity. Qed.

Lemma scanCatalog_dom :
  dom (scanHeaders (scanCatalog resp)) = list_to_set (map Name securityHeaders).
Proof.
  unfold scanCatalog. rewrite fold_scanHeader_dom. simpl scanHeaders.
  rewrite dom_empty_L. apply (left_id_L ∅ (∪)).
Qed.

Lemma scanCatalog_lookup header :
  In header securityHeaders ->
  scanHeaders (scanCatalog resp) !! Name header = Some (isHeaderPresent resp header).
Proof. apply fold_scanHeader_lookup, securityHeaders_names_NoDup. Qed.

End Scan.

Lemma Forall2_map_self {A B} (Q : B -> A -> Prop) (f : A -> B) (l : list A) :
  (forall a, In a l -> Q (f a) a) -> Forall2 Q (map f l) l.
Proof.
  induction l as [|a l IH]; intros H; simpl; constructor.
  - apply H. left. reflexivity.
  - apply IH. intros b Hb. apply H. right. exact Hb.
Qed.

(** ** The collections of the result *)

(** C7: in every result the summary lists the catalog, entry by entry and
    in catalog order (8 entries), each item with the entry's name,
    description, weight and aliases and its presence in the response; the
    keys of the headers map are exactly the 8 catalog names, and each name
    is mapped to the presence its summary item shows. *)
Theorem analyzeResponse_collections (resp : Response) (url : string) :
  let r := analyzeResponse resp url in
  length securityHeaders = 8%nat /\
  length (Summary r) = 8%nat /\
  Forall2 (fun item header =>
             Name item = Name header /\
             Present item = isHeaderPresent resp header /\
             Description item = Description header /\
             Weight item = Weight header /\
             Aliases item = Aliases header /\
             Headers r !! Name item = Some (Present item))
          (Summary r) securityHeaders /\
  dom (Headers r) = list_to_set (map Name securityHeaders) /\
  size (Headers r) = 8%nat.
Proof.
  unfold analyzeResponse. cbn [Summary Headers].
  rewrite scanCatalog_summary, scanCatalog_dom.
  split; [reflexivity|]. split; [reflexivity|]. split; [|split].
  - apply Forall2_map_self. intros header Hin.
    repeat split. exact (scanCatalog_lookup resp header Hin).
  - reflexivity.
  - rewrite <- size_dom, scanCatalog_dom.
    rewrite size_list_to_set by apply securityHeaders_names_NoDup.
    reflexivity.
Qed.

(** ** Success or error *)

(** C8: [AnalyzeURL] returns either a result and no error, the fetch having
    succeeded and every field of the result being set from the response,
    or no result and the error of the failed fetch; nothing else. *)
Theorem AnalyzeURL_result_or_error (client_Get : string -> FetchOutcome)
    (url : string) :
  (exists resp r,
     client_Get (normalizeURL url) = Fetched resp /\
     AnalyzeURL client_Get url = (Some r, None) /\
     r = analyzeResponse resp (normalizeURL url) /\
     URL r = normalizeURL url /\
     length (Summary r) = length securityHeaders /\
     dom (Headers r) = list_to_set (map Name securityHeaders) /\
     Grade r = calculateGrade (Score r) /\
     In (Grade r) ["A"; "B"; "C"; "D"; "F"]) \/
  (exists err,
     client_Get (normalizeURL url) = FetchFailed err /\
     AnalyzeURL client_Get url = (None, Some err)).
Proof.
  destruct (client_Get (normalizeURL url)) as [resp | err] eqn:Hget.
  - left. exists resp, (analyzeResponse resp (normalizeURL url)).
    split; [reflexivity|]. split; [apply AnalyzeURL_Fetched, Hget|].
    split; [reflexivity|]. split; [reflexivity|].
    unfold analyzeResponse. cbn [Summary Headers Grade Score].
    rewrite scanCatalog_summary, scanCatalog_dom, length_map.
    repeat split. apply calculateGrade_grades.
  - right. exists err. split; [reflexivity|]. apply AnalyzeURL_FetchFailed, Hget.
Qed.

(** ** The result depends on the response through its presence list *)

Lemma fold_scanHeader_presence r1 r2 hs :
  map (isHeaderPresent r1) hs = map (isHeaderPresent r2) hs ->
  forall st, fold_left (scanHeader r1) hs st = fold_left (scanHeader r2) hs st.
Proof.
  induction hs as [|h hs IH]; simpl; intros E st; [reflexivity|].
  injection E as Eh Ehs.
  rewrite (IH Ehs). unfold scanHeader, summaryItem. rewrite Eh. reflexivity.
Qed.

Lemma scanCatalog_presence r1 r2 :
  presence r1 = presence r2 -> scanCatalog r1 = scanCatalog r2.
Proof. intros E. apply fold_scanHeader_presence, E. Qed.

Lemma presence_length resp : length (presence resp) = 8%nat.
Proof. unfold presence. rewrite length_map. reflexivity. Qed.

Ltac each_presence bs Hlen :=
  do 8 (destruct bs as [|? bs]; [simpl in Hlen; discriminate Hlen|]);
  (destruct bs; [|simpl in Hlen; discriminate Hlen]);
  clear Hlen;
  repeat match goal with b : bool |- _ => destruct b end.

Lemma presence_responseOfPresence bs :
  length bs = 8%nat -> presence (responseOfPresence bs) = bs.
Proof. intros Hlen. each_presence bs Hlen; vm_compute; reflexivity. Qed.

(** A property of the presence list and of the state the loop ends in holds
    for every response once it holds for the 256 presence lists. *)
Lemma by_presence (Q : list bool -> ScanState -> Prop) :
  (forall bs, length bs = 8%nat -> Q bs (scanCatalog (responseOfPresence bs))) ->
  forall resp, Q (presence resp) (scanCatalog resp).
Proof.
  intros H resp.
  rewrite (scanCatalog_presence resp (responseOfPresence (presence resp))).
  - apply H, presence_length.
  - symmetry. apply presence_responseOfPresence, presence_length.
Qed.

(** ** Scoring *)

Lemma scoringFacts_hold resp : scoringFacts (presence resp) (scanCatalog resp) = true.
Proof.
  apply (by_presence (fun bs st => scoringFacts bs st = true)).
  intros bs Hlen. each_presence bs Hlen; vm_compute; reflexivity.
Qed.

(** The score reads the URL through its "https://" prefix only. *)
Lemma uncappedScore_https st url :
  uncappedScore st url =
  uncappedScore st (if HasPrefix url "https://" then "https://" else "").
Proof.
  unfold uncappedScore, httpsScore.
  destruct (HasPrefix url "https://"); reflexivity.
Qed.

Lemma scoringFacts_spec bs st :
  scoringFacts bs st = true ->
  totalWeight st = 110 /\
  achievedWeight st = presentWeight bs /\
  headerScore st = presentWeight bs * 70 / 110 /\
  countCriticalHeaders (scanSummary st) = presentInTier Critical bs /\
  countImportantHeaders (scanSummary st) = presentInTier Important bs /\
  (forall https : bool,
     uncappedScore st (if https then "https://" else "") =
       headerScore st + (if https then 30 else 0)
       + criticalBonusFormula (presentInTier Critical bs)
       + importantBonusFormula (presentInTier Important bs)) /\
  (0 <= headerScore st <= 70) /\
  (0 <= presentInTier Critical bs <= 3) /\
  (0 <= presentInTier Important bs <= 2).
Proof.
  unfold scoringFacts. cbv zeta. intros H.
  repeat (apply andb_true_iff in H; destruct H as [H ?]).
  repeat match goal with
         | E : Z.eqb _ _ = true |- _ => apply Z.eqb_eq in E
         | E : Z.leb _ _ = true |- _ => apply Z.leb_le in E
         end.
  apply Z.eqb_eq in H.
  repeat apply conj; try assumption; try lia.
  intros [|]; lia.
Qed.

(** What the loop and the counting functions compute, in terms of the
    presence list, and the score before the cap as a plain sum. *)
Lemma scoring_decomposition resp url :
  let st := scanCatalog resp in
  let bs := presence resp in
  totalWeight st = 110 /\
  achievedWeight st = presentWeight bs /\
  headerScore st = presentWeight bs * 70 / 110 /\
  countCriticalHeaders (scanSummary st) = presentInTier Critical bs /\
  countImportantHeaders (scanSummary st) = presentInTier Important bs /\
  uncappedScore st url =
    headerScore st + httpsScore url
    + criticalBonusFormula (presentInTier Critical bs)
    + importantBonusFormula (presentInTier Important bs) /\
  (0 <= headerScore st <= 70) /\
  (0 <= presentInTier Critical bs <= 3) /\
  (0 <= presentInTier Important bs <= 2).
Proof.
  cbv zeta.
  destruct (scoringFacts_spec _ _ (scoringFacts_hold resp))
    as (Ht & Ha & Hh & Hc & Hi & Hraw & Hhb & Hcb & Hib).
  rewrite (uncappedScore_https (scanCatalog resp) url), Hraw.
  unfold httpsScore. repeat apply conj; try assumption; lia.
Qed.

Lemma Score_cap resp url :
  Score (analyzeResponse resp url) = Z.min 100 (uncappedScore (scanCatalog resp) url).
Proof.
  unfold analyzeResponse. cbn [Score]. rewrite Z.gtb_ltb.
  destruct (Z.ltb_spec 100 (uncappedScore (scanCatalog resp) url)); lia.
Qed.

Lemma Summary_analyzeResponse resp url :
  Summary (analyzeResponse resp url) = scanSummary (scanCatalog resp).
Proof. unfold analyzeResponse. cbn [Summary]. reflexivity. Qed.

Lemma Grade_of_Score resp url :
  Grade (analyzeResponse resp url) = calculateGrade (Score (analyzeResponse resp url)).
Proof. unfold analyzeResponse. cbn [Grade Score]. reflexivity. Qed.

Lemma criticalBonusFormula_bounds n : 0 <= criticalBonusFormula n <= 10.
Proof.
  unfold criticalBonusFormula. rewrite Z.gtb_ltb.
  destruct (Z.ltb_spec 0 n); [|lia].
  assert (0 <= n * 10 / 3) by (apply Z.div_pos; lia). lia.
Qed.

Lemma importantBonusFormula_bounds n : 0 <= importantBonusFormula n <= 5.
Proof.
  unfold importantBonusFormula. rewrite Z.gtb_ltb.
  destruct (Z.ltb_spec 0 n); [|lia].
  assert (0 <= n * 5 / 2) by (apply Z.div_pos; lia). lia.
Qed.

Lemma criticalBonusFormula_mono n m :
  n <= m -> criticalBonusFormula n <= criticalBonusFormula m.
Proof.
  intros Hnm. pose proof (criticalBonusFormula_bounds m) as Hm. revert Hm.
  unfold criticalBonusFormula. rewrite !Z.gtb_ltb.
  destruct (Z.ltb_spec 0 n), (Z.ltb_spec 0 m); try lia. intros _.
  apply Z.min_le_compat_l, Z.div_le_mono; lia.
Qed.

Lemma importantBonusFormula_mono n m :
  n <= m -> importantBonusFormula n <= importantBonusFormula m.
Proof.
  intros Hnm. pose proof (importantBonusFormula_bounds m) as Hm. revert Hm.
  unfold importantBonusFormula. rewrite !Z.gtb_ltb.
  destruct (Z.ltb_spec 0 n), (Z.ltb_spec 0 m); try lia. intros _.
  apply Z.min_le_compat_l, Z.div_le_mono; lia.
Qed.

(** C4: for every response and URL the score before the cap is the sum of
    the header score, the HTTPS score and the two bonuses, it is never
    negative, and the score of the result is that sum capped at 100: it
    lies between 0 and 100. *)
Theorem Score_range (resp : Response) (url : string) :
  let st := scanCatalog resp in
  let r := analyzeResponse resp url in
  let total :=
    headerScore st + httpsScore url
    + criticalBonusFormula (countCriticalHeaders (Summary r))
    + importantBonusFormula (countImportantHeaders (Summary r)) in
  uncappedScore st url = total /\
  0 <= total /\
  Score r = Z.min 100 total /\
  (100 < total -> Score r = 100) /\
  0 <= Score r <= 100.
Proof.
  cbv zeta. rewrite Score_cap, !Summary_analyzeResponse.
  destruct (scoring_decomposition resp url)
    as (_ & _ & _ & -> & -> & -> & Hh & _ & _).
  pose proof (criticalBonusFormula_bounds (presentInTier Critical (presence resp))).
  pose proof (importantBonusFormula_bounds (presentInTier Important (presence resp))).
  assert (0 <= httpsScore url) by (unfold httpsScore; destruct (HasPrefix url _); lia).
  repeat apply conj; lia.
Qed.

(** C6: the two counts are the numbers of Critical-tier and of
    Important-tier entries present (0 to 3, 0 to 2); what is added for a
    count [n] above 0 is min(10, floor(n*10/3)) for the critical headers
    (3, 6, 10) and min(5, floor(n*5/2)) for the important ones (2, 5), and
    nothing is added for a count of 0. *)
Theorem bonus_tiering (resp : Response) (url : string) :
  let st := scanCatalog resp in
  let criticalCount := countCriticalHeaders (scanSummary st) in
  let importantCount := countImportantHeaders (scanSummary st) in
  criticalCount = presentInTier Critical (presence resp) /\
  importantCount = presentInTier Important (presence resp) /\
  0 <= criticalCount <= 3 /\
  0 <= importantCount <= 2 /\
  uncappedScore st url =
    headerScore st + httpsScore url
    + (if criticalCount >? 0 then Z.min 10 (criticalCount * 10 / 3) else 0)
    + (if importantCount >? 0 then Z.min 5 (importantCount * 5 / 2) else 0) /\
  (criticalCount > 0 ->
   criticalBonus criticalCount = Z.min 10 (criticalCount * 10 / 3)) /\
  (importantCount > 0 ->
   importantBonus importantCount = Z.min 5 (importantCount * 5 / 2)) /\
  map criticalBonus [1; 2; 3] = [3; 6; 10] /\
  map importantBonus [1; 2] = [2; 5].
Proof.
  cbv zeta.
  destruct (scoring_decomposition resp url)
    as (_ & _ & _ & Hc & Hi & Hraw & _ & Hcb & Hib).
  rewrite Hraw, Hc, Hi. unfold criticalBonusFormula, importantBonusFormula.
  repeat apply conj; try lia; try reflexivity.
  - intros Hpos.
    assert (Hn : In (presentInTier Critical (presence resp)) [1; 2; 3])
      by (simpl; lia).
    destruct Hn as [<- | [<- | [<- | []]]]; reflexivity.
  - intros Hpos.
    assert (Hn : In (presentInTier Important (presence resp)) [1; 2])
      by (simpl; lia).
    destruct Hn as [<- | [<- | []]]; reflexivity.
Qed.

(** ** Monotonicity *)

Lemma weightedCount_mono ws :
  Forall (fun w => 0 <= w) ws ->
  forall bs1 bs2,
    Forall2 (fun b1 b2 : bool => b1 = true -> b2 = true) bs1 bs2 ->
    weightedCount ws bs1 <= weightedCount ws bs2.
Proof.
  induction 1 as [|w ws Hw _ IH]; intros bs1 bs2 Hbs; [reflexivity|].
  destruct Hbs as [|b1 b2 bs1 bs2 Hb Hbs]; simpl; [reflexivity|].
  specialize (IH _ _ Hbs).
  destruct b1, b2; try lia; discriminate (Hb eq_refl).
Qed.

Lemma presence_mono r1 r2 :
  (forall header, In header securityHeaders ->
     isHeaderPresent r1 header = true -> isHeaderPresent r2 header = true) ->
  Forall2 (fun b1 b2 : bool => b1 = true -> b2 = true) (presence r1) (presence r2).
Proof.
  unfold presence. induction securityHeaders as [|h hs IH]; intros H; simpl; constructor.
  - apply H. left. reflexivity.
  - apply IH. intros header Hin. apply H. right. exact Hin.
Qed.

Lemma presentWeight_mono bs1 bs2 :
  Forall2 (fun b1 b2 : bool => b1 = true -> b2 = true) bs1 bs2 ->
  presentWeight bs1 <= presentWeight bs2.
Proof. apply weightedCount_mono. repeat constructor; discriminate. Qed.

Lemma presentInTier_mono t bs1 bs2 :
  Forall2 (fun b1 b2 : bool => b1 = true -> b2 = true) bs1 bs2 ->
  presentInTier t bs1 <= presentInTier t bs2.
Proof. apply weightedCount_mono. destruct t; repeat constructor; discriminate. Qed.

(** C9: for a fixed URL, if every catalog entry present in a response is
    present in a second one, the score of the first is at most the score of
    the second, and its grade is not the higher one. *)
Theorem Score_monotone (r1 r2 : Response) (url : string) :
  (forall header, In header securityHeaders ->
     isHeaderPresent r1 header = true -> isHeaderPresent r2 header = true) ->
  Score (analyzeResponse r1 url) <= Score (analyzeResponse r2 url) /\
  gradeRank (Grade (analyzeResponse r1 url))
    <= gradeRank (Grade (analyzeResponse r2 url)).
Proof.
  intros H. apply presence_mono in H.
  assert (Hs : Score (analyzeResponse r1 url) <= Score (analyzeResponse r2 url)).
  { rewrite !Score_cap.
    destruct (scoring_decomposition r1 url) as (_ & _ & Hh1 & _ & _ & -> & _).
    destruct (scoring_decomposition r2 url) as (_ & _ & Hh2 & _ & _ & -> & _).
    rewrite Hh1, Hh2.
    pose proof (presentWeight_mono _ _ H) as Hw.
    pose proof (criticalBonusFormula_mono _ _ (presentInTier_mono Critical _ _ H)).
    pose proof (importantBonusFormula_mono _ _ (presentInTier_mono Important _ _ H)).
    assert (presentWeight (presence r1) * 70 / 110 <= presentWeight (presence r2) * 70 / 110)
      by (apply Z.div_le_mono; lia).
    lia. }
  split; [exact Hs|].
  rewrite !Grade_of_Score. apply gradeRank_mono, Hs.
Qed.

Lemma Score_monotone_witness :
  let r1 := responseOfFields [("X-Frame-Options", "DENY")] in
  let r2 := responseOfFields [("x-frame-options", "DENY"); ("Referrer-Policy", "no-referrer")] in
  Score (analyzeResponse r1 "https://example.com")
    <= Score (analyzeResponse r2 "https://example.com") /\
  gradeRank (Grade (analyzeResponse r1 "https://example.com"))
    <= gradeRank (Grade (analyzeResponse r2 "https://example.com")).
Proof.
  cbv zeta. apply Score_monotone.
  intros header Hin.
  repeat (destruct Hin as [<- | Hin]; [vm_compute; intros E; first [exact E | reflexivity]|]).
  destruct Hin.
Defined.

(** ** HTTPS *)

Lemma httpsScore_startsWith url : startsWith url "https://" -> httpsScore url = 30.
Proof.
  intros H. apply HasPrefix_startsWith in H. unfold httpsScore. rewrite H. reflexivity.
Qed.

(** C10: when the URL analysed starts with "https://" the score is at least
    30 whatever the response carries, and the grade is one of "A", "B", "C",
    "D": never "F". *)
Theorem https_score_floor (resp : Response) (url : string) :
  startsWith url "https://" ->
  30 <= Score (analyzeResponse resp url) /\
  In (Grade (analyzeResponse resp url)) ["A"; "B"; "C"; "D"] /\
  Grade (analyzeResponse resp url) <> "F".
Proof.
  intros Hhttps.
  assert (Hs : 30 <= Score (analyzeResponse resp url)).
  { rewrite Score_cap.
    destruct (scoring_decomposition resp url) as (_ & _ & _ & _ & _ & -> & Hh & _).
    rewrite (httpsScore_startsWith url Hhttps).
    pose proof (criticalBonusFormula_bounds (presentInTier Critical (presence resp))).
    pose proof (importantBonusFormula_bounds (presentInTier Important (presence resp))).
    lia. }
  assert (Hg : In (Grade (analyzeResponse resp url)) ["A"; "B"; "C"; "D"])
    by (rewrite Grade_of_Score; apply calculateGrade_not_F; lia).
  repeat apply conj; [exact Hs | exact Hg |].
  intros E. rewrite E in Hg. simpl in Hg.
  repeat (destruct Hg as [Hg | Hg]; [discriminate Hg|]). exact Hg.
Qed.

Lemma https_score_floor_witness :
  30 <= Score (analyzeResponse (responseOfFields []) "https://example.com") /\
  In (Grade (analyzeResponse (responseOfFields []) "https://example.com"))
     ["A"; "B"; "C"; "D"] /\
  Grade (analyzeResponse (responseOfFields []) "https://example.com") <> "F".
Proof.
  apply https_score_floor. exists "example.com". reflexivity.
Defined.

Example https_no_headers :
  let r := analyzeResponse (responseOfFields []) "https://example.com" in
  Score r = 30 /\ Grade r = "D".
Proof. vm_compute. split; reflexivity. Qed.

(** ** Scenarios *)

(** C2: for the input "example.com" and a response in which exactly the
    three critical headers are present, the URL fetched is
    "https://example.com", the header score is floor(50*70/110) = 31, the
    HTTPS score 30, the critical bonus 10 for a count of 3, nothing is added
    for the important headers (count 0), and the result has score 71 and
    grade "B". *)
Theorem scenario_critical_only (client_Get : string -> FetchOutcome)
    (resp : Response) :
  client_Get "https://example.com" = Fetched resp ->
  presence resp = [true; true; true; false; false; false; false; false] ->
  let st := scanCatalog resp in
  normalizeURL "example.com" = "https://example.com" /\
  achievedWeight st = 50 /\
  totalWeight st = 110 /\
  headerScore st = 31 /\
  httpsScore "https://example.com" = 30 /\
  countCriticalHeaders (scanSummary st) = 3 /\
  criticalBonus (countCriticalHeaders (scanSummary st)) = 10 /\
  countImportantHeaders (scanSummary st) = 0 /\
  uncappedScore st "https://example.com" = 31 + 30 + 10 + 0 /\
  exists r,
    AnalyzeURL client_Get "example.com" = (Some r, None) /\
    URL r = "https://example.com" /\
    Score r = 71 /\
    Grade r = "B".
Proof.
  intros Hget Hp. cbv zeta.
  assert (Hst : scanCatalog resp =
                scanCatalog (responseOfPresence
                  [true; true; true; false; false; false; false; false])).
  { apply scanCatalog_presence. rewrite Hp. symmetry.
    apply presence_responseOfPresence. reflexivity. }
  rewrite (AnalyzeURL_Fetched client_Get "example.com" resp Hget).
  unfold analyzeResponse. rewrite Hst.
  repeat apply conj; try (vm_compute; reflexivity).
  eexists. split; [reflexivity|]. vm_compute. repeat split.
Qed.

Lemma scenario_critical_only_witness :
  let resp :=
    responseOfFields
      [("Strict-Transport-Security", "max-age=31536000");
       ("X-Content-Type-Options", "nosniff");
       ("X-Frame-Options", "DENY")] in
  exists r,
    AnalyzeURL (fun _ => Fetched resp) "example.com" = (Some r, None) /\
    URL r = "https://example.com" /\
    Score r = 71 /\
    Grade r = "B".
Proof.
  cbv zeta.
  refine (proj2 (proj2 (proj2 (proj2 (proj2 (proj2 (proj2 (proj2 (proj2
    (scenario_critical_only (fun _ => Fetched _) _ eq_refl _)))))))))).
  vm_compute. reflexivity.
Defined.

(** The other scenarios of the specification, evaluated. *)

Example scenario_all_present :
  let fields := map (fun header => (Name header, "1")) securityHeaders in
  let r := analyzeResponse (responseOfFields fields) "https://example.com" in
  uncappedScore (scanCatalog (responseOfFields fields)) "https://example.com" = 115 /\
  Score r = 100 /\ Grade r = "A".
Proof. vm_compute. repeat split. Qed.

Example scenario_nothing_present :
  let r := analyzeResponse (responseOfFields []) (normalizeURL "http://example.com") in
  URL r = "http://example.com" /\ Score r = 0 /\ Grade r = "F".
Proof. vm_compute. repeat split. Qed.

Example scenario_referrer_policy_only :
  let r := analyzeResponse (responseOfFields [("Referrer-Policy", "no-referrer")])
             "https://example.com" in
  Score r = 41 /\ Grade r = "D".
Proof. vm_compute. repeat split. Qed.

Example presence_lower_case_name :
  presence (responseOfFields [("strict-transport-security", "max-age=1")]) =
  presence (responseOfFields [("Strict-Transport-Security", "max-age=1")]).
Proof. vm_compute. reflexivity. Qed.

Example presence_alias_only :
  presence (responseOfFields [("Content-Security-Policy-Report-Only", "default-src 'self'")]) =
  [false; false; false; true; false; false; false; false].
Proof. vm_compute. reflexivity. Qed.

Example presence_empty_value :
  presence (responseOfFields [("X-Frame-Options", "")]) =
  [false; false; false; false; false; false; false; false].
Proof. vm_compute. reflexivity. Qed.

(** * Further properties *)

(** ** Normalization *)

Lemma normalizeURL_prefixed url :
  startsWith (normalizeURL url) "http://" \/ startsWith (normalizeURL url) "https://".
Proof.
  unfold normalizeURL.
  destruct (HasPrefix url "http://") eqn:H1; simpl.
  - left. apply HasPrefix_startsWith, H1.
  - destruct (HasPrefix url "https://") eqn:H2; simpl.
    + right. apply HasPrefix_startsWith, H2.
    + right. exists url. reflexivity.
Qed.

Lemma http_not_https url : startsWith url "http://" -> ~ startsWith url "https://".
Proof.
  intros [r1 E1] [r2 E2]. rewrite E1 in E2.
  rewrite !append_String in E2. congruence.
Qed.

Lemma normalizeURL_fixed url :
  startsWith url "http://" \/ startsWith url "https://" -> normalizeURL url = url.
Proof.
  unfold normalizeURL.
  intros [H | H]; apply HasPrefix_startsWith in H; rewrite H; simpl;
    [reflexivity | rewrite andb_false_r; reflexivity].
Qed.

(** X1: normalizing twice is normalizing once, so [AnalyzeURL] gives the same
    outcome for an input and for its normalized form. *)
Theorem normalizeURL_idempotent (url : string) :
  normalizeURL (normalizeURL url) = normalizeURL url /\
  forall client_Get,
    AnalyzeURL client_Get (normalizeURL url) = AnalyzeURL client_Get url.
Proof.
  assert (E : normalizeURL (normalizeURL url) = normalizeURL url)
    by apply normalizeURL_fixed, normalizeURL_prefixed.
  split; [exact E|].
  intros client_Get. unfold AnalyzeURL. rewrite E. reflexivity.
Qed.

(** X2: the URL of every result starts with "http://" or "https://", and it
    starts with "https://" exactly when the input did not start with
    "http://": every other input, whatever scheme it names, is fetched over
    https. *)
Theorem result_URL_scheme (client_Get : string -> FetchOutcome)
    (url : string) (r : AnalysisResult) :
  fst (AnalyzeURL client_Get url) = Some r ->
  (startsWith (URL r) "http://" \/ startsWith (URL r) "https://") /\
  (startsWith (URL r) "https://" <-> ~ startsWith url "http://").
Proof.
  intros Hr. apply AnalyzeURL_result in Hr as (resp & _ & ->).
  unfold analyzeResponse. cbn [URL].
  split; [apply normalizeURL_prefixed|].
  unfold normalizeURL.
  destruct (HasPrefix url "http://") eqn:H1; simpl.
  - apply HasPrefix_startsWith in H1. split.
    + intros H2. exfalso. exact (http_not_https url H1 H2).
    + intros H. contradiction.
  - apply HasPrefix_not_startsWith in H1.
    split; [intros _; exact H1 | intros _].
    destruct (HasPrefix url "https://") eqn:H2.
    + apply HasPrefix_startsWith, H2.
    + exists url. reflexivity.
Qed.

Lemma result_URL_scheme_witness :
  let r := analyzeResponse (responseOfFields []) "https://ftp://example.com" in
  (startsWith (URL r) "http://" \/ startsWith (URL r) "https://") /\
  (startsWith (URL r) "https://" <-> ~ startsWith "ftp://example.com" "http://").
Proof.
  cbv zeta.
  apply (result_URL_scheme (fun _ => Fetched (responseOfFields [])) "ftp://example.com").
  reflexivity.
Defined.

(** ** What of a response the analysis reads *)

Lemma valuesOf_cons n f fields :
  valuesOf n (f :: fields) =
  if equalFold (fst f) n then snd f :: valuesOf n fields else valuesOf n fields.
Proof. unfold valuesOf. simpl. destruct (equalFold (fst f) n); reflexivity. Qed.

Lemma equalFold_left a b n : equalFold a b = true -> equalFold a n = equalFold b n.
Proof. unfold equalFold. intros E. apply String.eqb_eq in E. rewrite E. reflexivity. Qed.

Lemma isHeaderPresent_agree f1 f2 header :
  forallb validKey (headerNames header) = true ->
  (forall n, In n (headerNames header) ->
     hd EmptyString (valuesOf n f1) = EmptyString <->
     hd EmptyString (valuesOf n f2) = EmptyString) ->
  isHeaderPresent (responseOfFields f1) header =
  isHeaderPresent (responseOfFields f2) header.
Proof.
  intros Hv H. apply Bool.eq_iff_eq_true.
  rewrite !(isHeaderPresent_fields _ _ Hv). unfold firstValueNonEmpty.
  split; intros (n & v & rest & Hin & Hl & Hne); specialize (H n Hin);
    rewrite Hl in H; simpl in H.
  - destruct (valuesOf n f2) as [|v' rest'] eqn:E; simpl in H.
    + exfalso. apply Hne, H. reflexivity.
    + exists n, v', rest'. repeat split; [exact Hin | exact E |].
      intros E'. apply Hne, H, E'.
  - destruct (valuesOf n f1) as [|v' rest'] eqn:E; simpl in H.
    + exfalso. apply Hne, H. reflexivity.
    + exists n, v', rest'. repeat split; [exact Hin | exact E |].
      intros E'. apply Hne, H, E'.
Qed.

Lemma presence_agree f1 f2 :
  (forall n, In n catalogNames ->
     hd EmptyString (valuesOf n f1) = EmptyString <->
     hd EmptyString (valuesOf n f2) = EmptyString) ->
  presence (responseOfFields f1) = presence (responseOfFields f2).
Proof.
  intros H. unfold presence. apply map_ext_in. intros header Hin.
  apply isHeaderPresent_agree.
  - exact (proj1 (List.Forall_forall _ _) securityHeaders_validKeys header Hin).
  - intros n Hn. apply H. unfold catalogNames. apply in_flat_map.
    exists header. split; assumption.
Qed.

Lemma analyzeResponse_presence r1 r2 url :
  presence r1 = presence r2 -> analyzeResponse r1 url = analyzeResponse r2 url.
Proof.
  intros H. unfold analyzeResponse. rewrite (scanCatalog_presence r1 r2 H). reflexivity.
Qed.

Lemma sameFieldShape_hd n f1 f2 :
  Forall2 sameFieldShape f1 f2 ->
  hd EmptyString (valuesOf n f1) = EmptyString <->
  hd EmptyString (valuesOf n f2) = EmptyString.
Proof.
  induction 1 as [|f g f1 f2 [Hname Hvalue] _ IH]; [reflexivity|].
  rewrite !valuesOf_cons, (equalFold_left _ _ n Hname).
  destruct (equalFold (fst g) n); [exact Hvalue | exact IH].
Qed.

(** X3: the analysis reads a response only through the names of its header
    fields up to case and through whether each value is empty: two responses
    whose fields agree on that, field by field, get the same result.  The
    content of a non-empty value is never inspected. *)
Theorem analyzeResponse_field_shape (f1 f2 : list (string * string))
    (url : string) :
  Forall2 sameFieldShape f1 f2 ->
  analyzeResponse (responseOfFields f1) url =
  analyzeResponse (responseOfFields f2) url.
Proof.
  intros H. apply analyzeResponse_presence, presence_agree.
  intros n _. apply sameFieldShape_hd, H.
Qed.

Lemma analyzeResponse_field_shape_witness :
  analyzeResponse
    (responseOfFields [("X-Frame-Options", "DENY"); ("Referrer-Policy", "")])
    "https://example.com" =
  analyzeResponse
    (responseOfFields [("x-frame-options", "not a directive"); ("REFERRER-POLICY", "")])
    "https://example.com".
Proof.
  apply analyzeResponse_field_shape.
  repeat constructor; simpl; intros E; discriminate E.
Defined.

Lemma valuesOf_catalog_filter n fields :
  In n catalogNames ->
  valuesOf n (List.filter (fun kv => isCatalogName (fst kv)) fields) = valuesOf n fields.
Proof.
  intros Hn. induction fields as [|f fields IH]; [reflexivity|].
  simpl. rewrite valuesOf_cons.
  destruct (isCatalogName (fst f)) eqn:Hc.
  - rewrite valuesOf_cons, IH. reflexivity.
  - rewrite IH. destruct (equalFold (fst f) n) eqn:E; [|reflexivity].
    exfalso. unfold isCatalogName in Hc.
    assert (Ht : existsb (equalFold (fst f)) catalogNames = true)
      by (apply existsb_exists; exists n; split; assumption).
    congruence.
Qed.

(** X4: header fields whose name is, up to case, none of the catalog's
    names or aliases play no part: dropping them from a response leaves the
    result unchanged. *)
Theorem analyzeResponse_ignores_other_fields (fields : list (string * string))
    (url : string) :
  analyzeResponse
    (responseOfFields (List.filter (fun kv => isCatalogName (fst kv)) fields)) url =
  analyzeResponse (responseOfFields fields) url.
Proof.
  apply analyzeResponse_presence, presence_agree.
  intros n Hn. rewrite (valuesOf_catalog_filter n fields Hn). reflexivity.
Qed.

(** ** The extreme scores and the scheme *)

Lemma extremeFacts_hold resp : extremeFacts (presence resp) (scanCatalog resp) = true.
Proof.
  apply (by_presence (fun bs st => extremeFacts bs st = true)).
  intros bs Hlen. each_presence bs Hlen; vm_compute; reflexivity.
Qed.

Lemma extremeFacts_spec bs st :
  extremeFacts bs st = true ->
  (uncappedScore st "" = 0 <-> forallb negb bs = true) /\
  (uncappedScore st "https://" = 115 <-> forallb (fun b => b) bs = true) /\
  uncappedScore st "" <= 85 /\
  uncappedScore st "https://" <= 115.
Proof.
  unfold extremeFacts. intros H.
  apply andb_true_iff in H as [H H115]. apply andb_true_iff in H as [H H85].
  apply andb_true_iff in H as [Hzero Hmax].
  apply Bool.eqb_prop in Hzero, Hmax. apply Z.leb_le in H85, H115.
  rewrite <- Hzero, <- Hmax, !Z.eqb_eq. tauto.
Qed.

Lemma uncappedScore_not_https st url :
  ~ startsWith url "https://" -> uncappedScore st url = uncappedScore st "".
Proof.
  intros H. apply HasPrefix_not_startsWith in H.
  rewrite (uncappedScore_https st url), H. reflexivity.
Qed.

Lemma uncappedScore_with_https st url :
  startsWith url "https://" -> uncappedScore st url = uncappedScore st "https://".
Proof.
  intros H. apply HasPrefix_startsWith in H.
  rewrite (uncappedScore_https st url), H. reflexivity.
Qed.

Lemma startsWith_dec url prefix : startsWith url prefix \/ ~ startsWith url prefix.
Proof.
  destruct (HasPrefix url prefix) eqn:H.
  - left. apply HasPrefix_startsWith, H.
  - right. apply HasPrefix_not_startsWith, H.
Qed.

Lemma presence_all (b : bool) resp :
  forallb (fun x => Bool.eqb x b) (presence resp) = true <->
  forall header, In header securityHeaders -> isHeaderPresent resp header = b.
Proof.
  unfold presence. rewrite forallb_forall. split.
  - intros H header Hin. apply Bool.eqb_prop, H, in_map, Hin.
  - intros H x Hx. apply in_map_iff in Hx as (header & <- & Hin).
    rewrite (H header Hin). apply Bool.eqb_reflx.
Qed.

Lemma forallb_negb bs : forallb negb bs = forallb (fun x => Bool.eqb x false) bs.
Proof. induction bs as [|[] bs IH]; simpl; auto. Qed.

Lemma forallb_id bs : forallb (fun b => b) bs = forallb (fun x => Bool.eqb x true) bs.
Proof. induction bs as [|[] bs IH]; simpl; auto. Qed.

(** X5: the score is 0 exactly when the URL analysed does not start with
    "https://" and no catalog entry is present. *)
Theorem Score_zero (resp : Response) (url : string) :
  Score (analyzeResponse resp url) = 0 <->
  ~ startsWith url "https://" /\
  forall header, In header securityHeaders -> isHeaderPresent resp header = false.
Proof.
  rewrite Score_cap, <- (presence_all false), <- forallb_negb.
  destruct (extremeFacts_spec _ _ (extremeFacts_hold resp)) as (Hzero & _ & _ & _).
  destruct (scoring_decomposition resp url) as (_ & _ & _ & _ & _ & Hraw & Hh & _).
  pose proof (criticalBonusFormula_bounds (presentInTier Critical (presence resp))).
  pose proof (importantBonusFormula_bounds (presentInTier Important (presence resp))).
  destruct (startsWith_dec url "https://") as [Hs | Hs].
  - rewrite (httpsScore_startsWith url Hs) in Hraw. split; [lia|].
    intros [Hn _]. contradiction.
  - rewrite (uncappedScore_not_https _ url Hs) in *. rewrite <- Hzero.
    split; [intros E; split; [exact Hs | lia] | intros [_ E]; lia].
Qed.

(** X6: the score before the cap is at most 115 and reaches 115 exactly for
    an "https://" URL with all eight entries present; for a URL that does not
    start with "https://" it is at most 85, so there the cap never applies
    and the score of the result is the uncapped sum. *)
Theorem Score_ceiling (resp : Response) (url : string) :
  let st := scanCatalog resp in
  uncappedScore st url <= 115 /\
  (uncappedScore st url = 115 <->
   startsWith url "https://" /\
   forall header, In header securityHeaders -> isHeaderPresent resp header = true) /\
  (~ startsWith url "https://" ->
   uncappedScore st url <= 85 /\
   Score (analyzeResponse resp url) = uncappedScore st url).
Proof.
  cbv zeta. rewrite Score_cap, <- (presence_all true), <- forallb_id.
  destruct (extremeFacts_spec _ _ (extremeFacts_hold resp)) as (_ & Hmax & H85 & H115).
  destruct (startsWith_dec url "https://") as [Hs | Hs].
  - rewrite (uncappedScore_with_https _ url Hs). split; [|split].
    + exact H115.
    + rewrite Hmax. split; [intros E; split; assumption | intros [_ E]; exact E].
    + intros Hn. contradiction.
  - rewrite (uncappedScore_not_https _ url Hs). split; [|split].
    + lia.
    + split; [lia | intros [Hn _]; contradiction].
    + intros _. split; lia.
Qed.

(** X7: for one response, an "https://" URL scores exactly 30 more than a
    URL without that prefix before the cap, and after the cap never less
    and at most 30 more. *)
Theorem https_worth_30 (resp : Response) (secure plain : string) :
  startsWith secure "https://" ->
  ~ startsWith plain "https://" ->
  uncappedScore (scanCatalog resp) secure = uncappedScore (scanCatalog resp) plain + 30 /\
  Score (analyzeResponse resp plain) <= Score (analyzeResponse resp secure)
    <= Score (analyzeResponse resp plain) + 30.
Proof.
  intros Hs Hp. rewrite !Score_cap.
  destruct (scoring_decomposition resp secure) as (_ & _ & _ & _ & _ & -> & _).
  destruct (scoring_decomposition resp plain) as (_ & _ & _ & _ & _ & -> & _).
  rewrite (httpsScore_startsWith secure Hs).
  apply HasPrefix_not_startsWith in Hp. unfold httpsScore. rewrite Hp. lia.
Qed.

Lemma https_worth_30_witness :
  let resp := responseOfFields [("X-Frame-Options", "DENY")] in
  uncappedScore (scanCatalog resp) "https://example.com" =
    uncappedScore (scanCatalog resp) "http://example.com" + 30 /\
  Score (analyzeResponse resp "http://example.com")
    <= Score (analyzeResponse resp "https://example.com")
    <= Score (analyzeResponse resp "http://example.com") + 30.
Proof.
  cbv zeta. apply https_worth_30.
  - exists "example.com". reflexivity.
  - apply HasPrefix_not_startsWith. reflexivity.
Defined.

(** ** Counting on any summary *)

Lemma presentUnderAny_existsb header names :
  presentUnderAny header names =
  existsb (String.eqb (Name header)) names && Present header.
Proof.
  induction names as [|n names IH]; simpl; [reflexivity|].
  rewrite IH. destruct (String.eqb (Name header) n), (Present header); simpl;
    rewrite ?andb_true_r, ?andb_false_r; reflexivity.
Qed.

Lemma hasAnyCriticalHeader_existsb summary :
  hasAnyCriticalHeader summary = existsb isCriticalPresent summary.
Proof.
  induction summary as [|header summary IH];
    cbn [hasAnyCriticalHeader existsb]; [reflexivity|].
  rewrite presentUnderAny_existsb, IH.
  change (existsb (String.eqb (Name header)) criticalHeaders && Present header)
    with (isCriticalPresent header).
  destruct (isCriticalPresent header); reflexivity.
Qed.

Lemma isCriticalPresent_spec header :
  isCriticalPresent header = true <->
  In (Name header) criticalHeaders /\ Present header = true.
Proof.
  unfold isCriticalPresent. rewrite andb_true_iff, existsb_exists. split.
  - intros [(n & Hin & E) Hp]. apply String.eqb_eq in E. subst n. auto.
  - intros [Hin Hp]. split; [|exact Hp].
    exists (Name header). split; [exact Hin | apply String.eqb_refl].
Qed.

(** X8: [hasAnyCriticalHeader] answers true exactly for a summary with an
    item that is marked present and named as one of the three critical
    headers; the comparison of names is exact. *)
Theorem hasAnyCriticalHeader_spec (summary : list SecurityHeader) :
  hasAnyCriticalHeader summary = true <->
  exists header,
    In header summary /\ In (Name header) criticalHeaders /\ Present header = true.
Proof.
  rewrite hasAnyCriticalHeader_existsb, existsb_exists.
  split; intros (header & Hin & H); exists header; (split; [exact Hin|]);
    apply isCriticalPresent_spec; exact H.
Qed.

Lemma wrap_id z : - 9223372036854775808 <= z < 9223372036854775808 -> GoInt.wrap z = z.
Proof.
  intros Hz. unfold GoInt.wrap.
  change (2 ^ 63) with 9223372036854775808.
  change (2 ^ 64) with 18446744073709551616.
  rewrite Z.mod_small; lia.
Qed.

Lemma countPresentUnder_filter names summary : forall count,
  0 <= count ->
  count + Z.of_nat (length summary) < 9223372036854775808 ->
  countPresentUnder names summary count =
  count + Z.of_nat (length (List.filter
            (fun header => existsb (String.eqb (Name header)) names && Present header)
            summary)).
Proof.
  induction summary as [|header summary IH]; intros count H0 Hlen; simpl.
  - lia.
  - simpl length in Hlen. rewrite Nat2Z.inj_succ in Hlen.
    rewrite presentUnderAny_existsb.
    destruct (existsb (String.eqb (Name header)) names && Present header).
    + unfold GoInt.add. rewrite wrap_id by lia.
      rewrite IH by lia. simpl length. lia.
    + apply IH; lia.
Qed.

Lemma existsb_filter_length {A} (p : A -> bool) l :
  existsb p l = true <-> Z.of_nat (length (List.filter p l)) > 0.
Proof.
  induction l as [|a l IH]; simpl.
  - split; [discriminate | lia].
  - destruct (p a); simpl; [split; [lia | reflexivity] | exact IH].
Qed.

(** X9: on a summary short enough for the counter not to wrap (fewer than
    2^63 items), the two counting functions return the number of items that
    are marked present and named as a critical, respectively important,
    header, an item being counted each time it occurs; and
    [hasAnyCriticalHeader] is true exactly when the critical count is
    positive. *)
Theorem countHeaders_spec (summary : list SecurityHeader) :
  Z.of_nat (length summary) < 2 ^ 63 ->
  countCriticalHeaders summary =
    Z.of_nat (length (List.filter isCriticalPresent summary)) /\
  countImportantHeaders summary =
    Z.of_nat (length (List.filter isImportantPresent summary)) /\
  (hasAnyCriticalHeader summary = true <-> countCriticalHeaders summary > 0).
Proof.
  change (2 ^ 63) with 9223372036854775808. intros Hlen.
  assert (Hc : countCriticalHeaders summary =
               Z.of_nat (length (List.filter isCriticalPresent summary)))
    by (unfold countCriticalHeaders; rewrite countPresentUnder_filter by lia; reflexivity).
  split; [exact Hc|]. split.
  - unfold countImportantHeaders. rewrite countPresentUnder_filter by lia. reflexivity.
  - rewrite Hc, hasAnyCriticalHeader_existsb. apply existsb_filter_length.
Qed.

Lemma countHeaders_spec_witness :
  let item :=
    {| Name := "X-Frame-Options"; Present := true; Description := "";
       Weight := 15; Aliases := [] |} in
  countCriticalHeaders [item; item] = 2 /\
  countImportantHeaders [item; item] = 0 /\
  (hasAnyCriticalHeader [item; item] = true <-> countCriticalHeaders [item; item] > 0).
Proof.
  cbv zeta. exact (countHeaders_spec [_; _] eq_refl).
Defined.

(** X10: neither bonus ever exceeds its cap, 10 and 5; for a count from 0
    up to 922337203685477580, for which the multiplication does not wrap,
    the bonuses are min(10, floor(n*10/3)) and min(5, floor(n*5/2)), so the
    caps are reached from 3 and from 2 onwards. *)
Theorem bonus_caps (n : Z) :
  criticalBonus n <= 10 /\
  importantBonus n <= 5 /\
  (0 <= n <= 922337203685477580 ->
   criticalBonus n = Z.min 10 (n * 10 / 3) /\
   importantBonus n = Z.min 5 (n * 5 / 2) /\
   (3 <= n -> criticalBonus n = 10) /\
   (2 <= n -> importantBonus n = 5)).
Proof.
  split; [|split].
  - unfold criticalBonus. cbv zeta. rewrite Z.gtb_ltb.
    destruct (Z.ltb_spec 10 (GoInt.quo (GoInt.mul n 10) 3)); lia.
  - unfold importantBonus. cbv zeta. rewrite Z.gtb_ltb.
    destruct (Z.ltb_spec 5 (GoInt.quo (GoInt.mul n 5) 2)); lia.
  - intros Hn.
    assert (Hc : criticalBonus n = Z.min 10 (n * 10 / 3)).
    { unfold criticalBonus, GoInt.quo, GoInt.mul. cbv zeta.
      rewrite (wrap_id (n * 10)) by lia.
      rewrite Z.quot_div_nonneg by lia.
      assert (0 <= n * 10 / 3 <= n * 10)
        by (split; [apply Z.div_pos; lia | apply Z.div_le_upper_bound; lia]).
      rewrite wrap_id by lia. rewrite Z.gtb_ltb.
      destruct (Z.ltb_spec 10 (n * 10 / 3)); lia. }
    assert (Hi : importantBonus n = Z.min 5 (n * 5 / 2)).
    { unfold importantBonus, GoInt.quo, GoInt.mul. cbv zeta.
      rewrite (wrap_id (n * 5)) by lia.
      rewrite Z.quot_div_nonneg by lia.
      assert (0 <= n * 5 / 2 <= n * 5)
        by (split; [apply Z.div_pos; lia | apply Z.div_le_upper_bound; lia]).
      rewrite wrap_id by lia. rewrite Z.gtb_ltb.
      destruct (Z.ltb_spec 5 (n * 5 / 2)); lia. }
    split; [exact Hc|]. split; [exact Hi|]. split; intros H3.
    + rewrite Hc. assert (10 <= n * 10 / 3) by (apply Z.div_le_lower_bound; lia). lia.
    + rewrite Hi. assert (5 <= n * 5 / 2) by (apply Z.div_le_lower_bound; lia). lia.
Qed.

Lemma bonus_caps_witness :
  criticalBonus 7 = Z.min 10 (7 * 10 / 3) /\ criticalBonus 7 = 10.
Proof.
  pose proof (bonus_caps 7) as (_ & _ & H).
  destruct H as (Hc & _ & H3 & _); [lia|].
  split; [exact Hc | apply H3; lia].
Defined.

(** ** The handler *)

Section HandlerFacts.

Variable Ctx : Type.
Variable BodyParser : Ctx -> option AnalyzeRequest.
Variable client_Get : string -> FetchOutcome.

Lemma analyzeHandler_cases c :
  (BodyParser c = None /\
   analyzeHandler Ctx BodyParser client_Get c =
     {| ReplyStatus := 400; ReplyJSON := ErrorBody {| Error := "Invalid request body" |} |}) \/
  (exists req, BodyParser c = Some req /\ RequestURL req = EmptyString /\
   analyzeHandler Ctx BodyParser client_Get c =
     {| ReplyStatus := 400; ReplyJSON := ErrorBody {| Error := "URL is required" |} |}) \/
  (exists req err, BodyParser c = Some req /\ RequestURL req <> EmptyString /\
   client_Get (normalizeURL (RequestURL req)) = FetchFailed err /\
   analyzeHandler Ctx BodyParser client_Get c =
     {| ReplyStatus := 500;
        ReplyJSON := ErrorBody {| Error := "Failed to analyze URL: " +:+ err |} |}) \/
  (exists req resp, BodyParser c = Some req /\ RequestURL req <> EmptyString /\
   client_Get (normalizeURL (RequestURL req)) = Fetched resp /\
   analyzeHandler Ctx BodyParser client_Get c =
     {| ReplyStatus := 200;
        ReplyJSON := ResultBody
          (Some (analyzeResponse resp (normalizeURL (RequestURL req)))) |}).
Proof.
  unfold analyzeHandler.
  destruct (BodyParser c) as [req|]; [|left; auto].
  destruct (String.eqb_spec (RequestURL req) EmptyString) as [E | Hne].
  - right. left. exists req. auto.
  - unfold AnalyzeURL.
    destruct (client_Get (normalizeURL (RequestURL req))) as [resp | err] eqn:Hget.
    + do 3 right. exists req, resp. auto.
    + do 2 right. left. exists req, err. auto.
Qed.

End HandlerFacts.

(** X11: the handler replies 200 exactly when the body parsed, the URL of
    the request is not empty and the fetch of the normalized URL succeeded;
    the reply then carries the result of analysing the fetched response,
    never a null result. *)
Theorem analyzeHandler_ok (Ctx : Type) (BodyParser : Ctx -> option AnalyzeRequest)
    (client_Get : string -> FetchOutcome) (c : Ctx) :
  ReplyStatus (analyzeHandler Ctx BodyParser client_Get c) = StatusOK <->
  exists req resp,
    BodyParser c = Some req /\
    RequestURL req <> EmptyString /\
    client_Get (normalizeURL (RequestURL req)) = Fetched resp /\
    ReplyJSON (analyzeHandler Ctx BodyParser client_Get c) =
      ResultBody (Some (analyzeResponse resp (normalizeURL (RequestURL req)))).
Proof.
  destruct (analyzeHandler_cases Ctx BodyParser client_Get c)
    as [[Hp ->] | [(req & Hp & Hu & ->) | [(req & err & Hp & Hu & Hget & ->)
       | (req & resp & Hp & Hu & Hget & ->)]]]; cbn [ReplyStatus ReplyJSON].
  - split; [discriminate | intros (? & ? & ? & _); congruence].
  - split; [discriminate | intros (? & ? & ? & ? & _); congruence].
  - split; [discriminate | intros (? & ? & ? & ? & ? & _); congruence].
  - split; [intros _ | reflexivity]. exists req, resp. auto.
Qed.

(** X12: every reply has status 200, 400 or 500, and every reply other than
    200 carries an error message.  The status is 400 exactly when the body
    did not parse or the URL is empty, and such a reply does not depend on
    the network: nothing is fetched.  It is 500 exactly when the fetch
    failed, and the message is then "Failed to analyze URL: " followed by
    the error of the fetch. *)
Theorem analyzeHandler_errors (Ctx : Type) (BodyParser : Ctx -> option AnalyzeRequest)
    (client_Get : string -> FetchOutcome) (c : Ctx) :
  let reply := analyzeHandler Ctx BodyParser client_Get c in
  In (ReplyStatus reply) [StatusOK; StatusBadRequest; StatusInternalServerError] /\
  (ReplyStatus reply <> StatusOK -> exists e, ReplyJSON reply = ErrorBody e) /\
  (ReplyStatus reply = StatusBadRequest <->
   BodyParser c = None \/
   exists req, BodyParser c = Some req /\ RequestURL req = EmptyString) /\
  (ReplyStatus reply = StatusBadRequest ->
   forall other_Get, analyzeHandler Ctx BodyParser other_Get c = reply) /\
  (ReplyStatus reply = StatusInternalServerError <->
   exists req err,
     BodyParser c = Some req /\
     RequestURL req <> EmptyString /\
     client_Get (normalizeURL (RequestURL req)) = FetchFailed err /\
     ReplyJSON reply = ErrorBody {| Error := "Failed to analyze URL: " +:+ err |}).
Proof.
  cbv zeta.
  destruct (analyzeHandler_cases Ctx BodyParser client_Get c)
    as [[Hp ->] | [(req & Hp & Hu & ->) | [(req & err & Hp & Hu & Hget & ->)
       | (req & resp & Hp & Hu & Hget & ->)]]]; cbn [ReplyStatus ReplyJSON].
  - split; [simpl; auto|]. split; [eauto|]. split; [split; auto|]. split.
    + intros _ other_Get. unfold analyzeHandler. rewrite Hp. reflexivity.
    + split; [discriminate | intros (? & ? & ? & _); congruence].
  - split; [simpl; auto|]. split; [eauto|]. split; [split; eauto|]. split.
    + intros _ other_Get. unfold analyzeHandler. rewrite Hp, Hu. reflexivity.
    + split; [discriminate | intros (? & ? & ? & ? & _); congruence].
  - split; [simpl; auto|]. split; [eauto|]. split; [|split].
    + split; [discriminate | intros [? | (? & ? & ?)]; congruence].
    + discriminate.
    + split; [intros _ | reflexivity]. exists req, err. auto.
  - split; [simpl; auto|]. split; [intros H; exfalso; apply H; reflexivity|].
    split; [|split].
    + split; [discriminate | intros [? | (? & ? & ?)]; congruence].
    + discriminate.
    + split; [discriminate | intros (? & ? & ? & ? & ? & _); congruence].
Qed.

(** ** Fields received later *)

Lemma valuesOf_app n f1 f2 :
  valuesOf n (f1 ++ f2)%list = (valuesOf n f1 ++ valuesOf n f2)%list.
Proof. unfold valuesOf. rewrite List.filter_app, map_app. reflexivity. Qed.

(** X13: header fields received after the others never make a present
    catalog entry absent: only the first value under a name is read. *)
Theorem isHeaderPresent_later_fields (fields more : list (string * string))
    (header : SecurityHeader) :
  In header securityHeaders ->
  isHeaderPresent (responseOfFields fields) header = true ->
  isHeaderPresent (responseOfFields (fields ++ more)%list) header = true.
Proof.
  intros Hin.
  pose proof (proj1 (List.Forall_forall _ _) securityHeaders_validKeys header Hin) as Hv.
  rewrite !(isHeaderPresent_fields _ _ Hv).
  intros (n & v & rest & Hn & Hl & Hne).
  exists n, v, (rest ++ valuesOf n more)%list.
  rewrite valuesOf_app, Hl. auto.
Qed.

Lemma isHeaderPresent_later_fields_witness :
  isHeaderPresent
    (responseOfFields ([("Feature-Policy", "camera 'none'")]
                       ++ [("Permissions-Policy", "")])%list)
    {| Name := "Permissions-Policy"; Present := false;
       Description := "Controls which browser features and APIs can be used.";
       Weight := 10; Aliases := ["Feature-Policy"] |} = true.
Proof.
  apply isHeaderPresent_later_fields.
  - do 5 right. left. reflexivity.
  - vm_compute. reflexivity.
Defined.
